(** * argo-probe-onboarding: the catalog client of [modules/catalog.py]

    A shallow embedding of the class [CatalogAPI] and of the parts of the
    Python run time it relies on (JSON values and their truth value, the
    exceptions it raises and catches, [requests]' status handling), followed
    by the properties of the three checks it offers. *)

From Stdlib Require Import ZArith String Ascii Bool List Lia.
From Stdlib Require Import Floats.SpecFloat.
From stdpp Require Import base option gmap strings pretty.

#[local] Set Warnings "-register-all".
#[local] Open Scope string_scope.
#[local] Open Scope Z_scope.

(** ** Python values *)

Module Py.

(** What [response.json()] can produce: [None], [bool], [int], [float],
    [str], [list] and [dict] with string keys. *)
Inductive value : Type :=
| JNull
| JBool (b : bool)
| JInt (n : Z)
| JFloat (f : spec_float)
| JStr (s : string)
| JList (l : list value)
| JDict (m : gmap string value).

Definition None_ : value := JNull.
Definition True_ : value := JBool true.
Definition False_ : value := JBool false.

(** [bool(v)]: the truth value Python gives to [v]. *)
Definition truthy (v : value) : bool :=
  match v with
  | JNull => false
  | JBool b => b
  | JInt n => negb (n =? 0)
  | JFloat f => match f with S754_zero _ => false | _ => true end
  | JStr s => negb (String.eqb s "")
  | JList l => match l with [] => false | _ :: _ => true end
  | JDict m => negb (bool_decide (m = ∅))
  end.

Definition is_bool (v : value) : bool :=
  match v with JBool _ => true | _ => false end.

(** [str.endswith]: some tail of [s] is [suffix]. *)
Fixpoint endswith (s suffix : string) : bool :=
  String.eqb s suffix ||
  match s with
  | EmptyString => false
  | String _ s' => endswith s' suffix
  end.

(** The classes of [requests.exceptions] named by the handlers of the
    module. [RequestException] is their common base class; it also stands
    for every subclass that is not named (InvalidURL, MissingSchema, ...). *)
Inductive requests_class : Type :=
| HTTPError
| ConnectionError
| RequestException
| Timeout
| TooManyRedirects.

#[global] Instance requests_class_eq_dec : EqDecision requests_class.
Proof. solve_decision. Defined.

Definition issubclass (c base : requests_class) : bool :=
  bool_decide (c = base) || bool_decide (base = RequestException).

(** The argument a [CriticalException] was built with: the caught exception
    itself in [_get_data], a formatted message in [check_url_valid]. *)
Inductive critical_arg : Type :=
| ArgExc (c : requests_class) (msg : string)
| ArgStr (msg : string).

(** Modelled from the spec: [CriticalException] is declared in
    [argo_probe_onboarding.exceptions], which is not part of the sources at
    hand; the spec describes it as the one unrecoverable error kind, carrying
    the underlying cause and, for URL checks, the offending URL. The other
    constructors are Python's own exceptions and those of [requests]. *)
Inductive exn : Type :=
| Requests (c : requests_class) (msg : string)
| CriticalException (arg : critical_arg)
| KeyError (key : string)
| TypeError
| ValueError
| AttributeError (attr : string).

Definition result (A : Type) : Type := exn + A.

(** [key in container], for a string [key]. *)
Definition contains (container : value) (key : string) : result bool :=
  match container with
  | JDict m => inr (bool_decide (is_Some (m !! key)))
  | JList l =>
      inr (existsb (fun v => match v with
                             | JStr s => String.eqb s key
                             | _ => false
                             end) l)
  | JStr s => inr (bool_decide (is_Some (String.index 0 key s)))
  | _ => inl TypeError
  end.

(** [container[key]], for a string [key]. *)
Definition getitem (container : value) (key : string) : result value :=
  match container with
  | JDict m =>
      match m !! key with
      | Some v => inr v
      | None => inl (KeyError key)
      end
  | _ => inl TypeError
  end.

End Py.

(** ** The parts of [requests] and [datetime] the module calls *)

Module Requests.
Import Py.

(** A received response, as far as the module looks at it; [json] is what
    [response.json()] does on its body. *)
Record response : Type := {
  status_code : Z;
  reason : string;
  url : string;
  json : result value
}.

(** What a call of [requests.get] does. *)
Inductive outcome : Type :=
| Raises (e : exn)
| Returns (r : response).

Definition http_error_msg (r : response) : option string :=
  if (400 <=? status_code r) && (status_code r <? 500) then
    Some (pretty (status_code r) +:+ " Client Error: " +:+ reason r
          +:+ " for url: " +:+ url r)
  else if (500 <=? status_code r) && (status_code r <? 600) then
    Some (pretty (status_code r) +:+ " Server Error: " +:+ reason r
          +:+ " for url: " +:+ url r)
  else None.

Definition raise_for_status (r : response) : result unit :=
  match http_error_msg r with
  | Some msg => inl (Requests HTTPError msg)
  | None => inr tt
  end.

(** The property [Response.ok]. *)
Definition ok (r : response) : bool :=
  match raise_for_status r with
  | inl (Requests HTTPError _) => false
  | _ => true
  end.

End Requests.

Module Datetime.

Record datetime : Type := {
  year : Z;
  month : Z;
  day : Z;
  hour : Z;
  minute : Z;
  second : Z;
  microsecond : Z
}.

Definition is_leap (y : Z) : bool :=
  (y mod 4 =? 0) && (negb (y mod 100 =? 0) || (y mod 400 =? 0)).

Definition days_in_month (y m : Z) : Z :=
  if m =? 2 then (if is_leap y then 29 else 28)
  else if (m =? 4) || (m =? 6) || (m =? 9) || (m =? 11) then 30
  else 31.

(** The range checks every [datetime] object has passed. *)
Definition valid (d : datetime) : bool :=
  (1 <=? year d) && (year d <=? 9999)
  && (1 <=? month d) && (month d <=? 12)
  && (1 <=? day d) && (day d <=? days_in_month (year d) (month d))
  && (0 <=? hour d) && (hour d <? 24)
  && (0 <=? minute d) && (minute d <? 60)
  && (0 <=? second d) && (second d <? 60)
  && (0 <=? microsecond d) && (microsecond d <? 1000000).

End Datetime.

(** ** The class [CatalogAPI] *)

Module CatalogAPI.
Import Py Datetime.
Import Requests (response, outcome, Raises, Returns, raise_for_status, ok).

(** The attributes of an instance. Each is unset until [__init__] assigns
    it; reading an unset attribute raises [AttributeError]. *)
Record obj : Type := {
  url : option string;
  catalog_id : option string;
  timeout : option value;
  data : option value
}.

Definition blank : obj :=
  {| url := None; catalog_id := None; timeout := None; data := None |}.

(** One [requests.get] call: the URL and the [timeout] argument ([None]
    when the call gives none). *)
Record request : Type := { req_url : value; req_timeout : value }.

(** What a method can read and change: the instance, and the requests sent
    so far (oldest first). *)
Record state : Type := { self : obj; sent : list request }.

(** Computations that read and write the state and may raise. A raised
    exception keeps the state reached so far. *)
Definition M (A : Type) : Type := state -> result A * state.

Definition ret {A} (a : A) : M A := fun st => (inr a, st).

Definition raise {A} (e : exn) : M A := fun st => (inl e, st).

Definition bind {A B} (c : M A) (k : A -> M B) : M B :=
  fun st =>
    match c st with
    | (inr a, st') => k a st'
    | (inl e, st') => (inl e, st')
    end.

Definition lift {A} (r : result A) : M A := fun st => (r, st).

#[local] Notation "x <- c ;; k" := (bind c (fun x => k))
  (at level 100, c at next level, right associativity).
#[local] Notation "c ;;; k" := (bind c (fun _ => k))
  (at level 100, right associativity).

(** [try: body except classes as e: handler e]. Only exceptions of
    [requests] can be instances of the classes listed. *)
Definition try_except {A} (body : M A) (classes : list requests_class)
    (handler : requests_class -> string -> M A) : M A :=
  fun st =>
    match body st with
    | (inl (Requests c msg), st') =>
        if existsb (issubclass c) classes then handler c msg st'
        else (inl (Requests c msg), st')
    | other => other
    end.

Definition getattr {A} (name : string) (field : obj -> option A) : M A :=
  fun st =>
    match field (self st) with
    | Some a => (inr a, st)
    | None => (inl (AttributeError name), st)
    end.

Definition self_url : M string := getattr "url" url.
Definition self_catalog_id : M string := getattr "catalog_id" catalog_id.
Definition self_timeout : M value := getattr "timeout" timeout.
Definition self_data : M value := getattr "data" data.

Definition set_url (v : string) : M unit := fun st =>
  (inr tt, {| self := {| url := Some v; catalog_id := catalog_id (self st);
                         timeout := timeout (self st); data := data (self st) |};
              sent := sent st |}).
Definition set_catalog_id (v : string) : M unit := fun st =>
  (inr tt, {| self := {| url := url (self st); catalog_id := Some v;
                         timeout := timeout (self st); data := data (self st) |};
              sent := sent st |}).
Definition set_timeout (v : value) : M unit := fun st =>
  (inr tt, {| self := {| url := url (self st); catalog_id := catalog_id (self st);
                         timeout := Some v; data := data (self st) |};
              sent := sent st |}).
Definition set_data (v : value) : M unit := fun st =>
  (inr tt, {| self := {| url := url (self st); catalog_id := catalog_id (self st);
                         timeout := timeout (self st); data := Some v |};
              sent := sent st |}).

(** The handlers of [_get_data] and [check_url_valid] list the same
    classes. *)
Definition handled : list requests_class :=
  [HTTPError; ConnectionError; RequestException; Timeout; TooManyRedirects].

(** The value of the local variable [url] of [_get_data] (lines 19-23), as
    a function of the two attributes it is built from. *)
Definition request_url (url catalog_id : string) : string :=
  if endswith url "/" then url +:+ catalog_id
  else url +:+ "/" +:+ catalog_id.

(** An instance with every attribute assigned. *)
Definition instance (url catalog_id : string) (timeout d : value) : obj :=
  {| url := Some url; catalog_id := Some catalog_id;
     timeout := Some timeout; data := Some d |}.

Section World.

(** The world outside the module: the answer of the network to a GET, the
    parser [datetime.datetime.strptime] ([None] when it raises
    [ValueError]), the clock read by [get_today], and [str()] of values
    that are not strings. *)
Variable network : value -> value -> outcome.
Variable strptime : string -> string -> option datetime.
Variable now : datetime.
Variable py_str : value -> string.

Definition requests_get (u : value) (tmo : value) : M response :=
  fun st =>
    let st' := {| self := self st;
                  sent := sent st ++ [{| req_url := u; req_timeout := tmo |}] |} in
    match network u tmo with
    | Raises e => (inl e, st')
    | Returns r => (inr r, st')
    end.

Definition get_today : M datetime := ret now.

(** [datetime.datetime.strptime(v, date_format)]; a first argument that is
    not a [str] is a [TypeError]. *)
Definition datetime_strptime (v : value) (date_format : string) : M datetime :=
  match v with
  | JStr s =>
      match strptime s date_format with
      | Some d => ret d
      | None => raise ValueError
      end
  | _ => raise TypeError
  end.

(** [f"{v}"]. *)
Definition format (v : value) : string :=
  match v with
  | JStr s => s
  | _ => py_str v
  end.

Definition _get_data : M value :=
  u <- self_url ;;
  url <- (if endswith u "/"
          then (u <- self_url ;; c <- self_catalog_id ;; ret (u +:+ c))
          else (u <- self_url ;; c <- self_catalog_id ;; ret (u +:+ "/" +:+ c))) ;;
  try_except
    (tmo <- self_timeout ;;
     response <- requests_get (JStr url) tmo ;;
     lift (raise_for_status response) ;;;
     if ok response then lift (Requests.json response)
     else ret None_)
    handled
    (fun c msg => raise (CriticalException (ArgExc c msg))).

Definition __init__ (url catalog_id : string) (timeout : value) : M unit :=
  set_url url ;;;
  set_catalog_id catalog_id ;;;
  set_timeout timeout ;;;
  d <- _get_data ;;
  set_data d.

Definition check_key_exists (key : string) : M value :=
  d <- self_data ;;
  found <- lift (contains d key) ;;
  if found then (d <- self_data ;; lift (getitem d key))
  else ret False_.

Definition check_url_valid (key : string) : M value :=
  try_except
    (d <- self_data ;;
     u <- lift (getitem d key) ;;
     response <- requests_get u None_ ;;
     lift (raise_for_status response) ;;;
     if ok response then ret True_
     else ret None_)
    handled
    (fun c msg =>
       d <- self_data ;;
       u <- lift (getitem d key) ;;
       raise (CriticalException
                (ArgStr ("URL " +:+ format u +:+ " not valid: " +:+ msg)))).

Definition check_date_age (key date_format : string) : M Z :=
  let age_month (d : datetime) : M Z :=
    today <- get_today ;;
    ret ((year today - year d) * 12 + month today - month d) in
  d <- self_data ;;
  v <- lift (getitem d key) ;;
  datetime_object <- datetime_strptime v date_format ;;
  age_month datetime_object.

(** The call [CatalogAPI(url, catalog_id, timeout)]: a blank instance is
    made, [__init__] runs on it, and the caller gets the instance only if
    [__init__] returns; otherwise the exception is all the caller gets. *)
Definition new (sent0 : list request) (url catalog_id : string) (timeout : value)
    : result obj * list request :=
  match __init__ url catalog_id timeout {| self := blank; sent := sent0 |} with
  | (inr _, st) => (inr (self st), sent st)
  | (inl e, st) => (inl e, sent st)
  end.

End World.

(** What the [try] statement of [_get_data] makes of the answer to its
    GET: the value [_get_data] returns or the exception it raises. *)
Definition fetched (answer : outcome) : result value :=
  match answer with
  | Raises (Requests c msg) => inl (CriticalException (ArgExc c msg))
  | Raises e => inl e
  | Returns r =>
      match Requests.http_error_msg r with
      | Some msg => inl (CriticalException (ArgExc HTTPError msg))
      | None =>
          match Requests.json r with
          | inl (Requests c msg) => inl (CriticalException (ArgExc c msg))
          | other => other
          end
      end
  end.

(** The message of the exception [check_url_valid] raises for the URL
    printed as [shown] and the cause [msg]. *)
Definition not_valid (shown msg : string) : exn :=
  CriticalException (ArgStr ("URL " +:+ shown +:+ " not valid: " +:+ msg)).

(** What the [try] statement of [check_url_valid] makes of the answer to
    its GET, for a URL printed as [shown]. *)
Definition probed (shown : string) (answer : outcome) : result value :=
  match answer with
  | Raises (Requests c msg) => inl (not_valid shown msg)
  | Raises e => inl e
  | Returns r =>
      match Requests.http_error_msg r with
      | Some msg => inl (not_valid shown msg)
      | None => inr True_
      end
  end.

(** A method leaves the instance as it found it, whatever it returns or
    raises. *)
Definition preserves_self {A} (c : M A) : Prop :=
  forall st, self (snd (c st)) = self st.

End CatalogAPI.

(** ** A test double of the outside world

    The answers of the network and of the date parser on the inputs used by
    the examples, in the way the tests of such a probe replace [requests.get]
    and [get_today]. *)

Module Mock.
Import Py Datetime.

Definition midnight (y m d : Z) : datetime :=
  {| year := y; month := m; day := d;
     hour := 0; minute := 0; second := 0; microsecond := 0 |}.

Definition document : gmap string value :=
  list_to_map
    [ ("name", JStr "Example service");
      ("description", JStr "");
      ("active", JBool true);
      ("website", JStr "https://example.org/");
      ("cached", JStr "https://example.org/cached");
      ("broken", JStr "https://example.org/broken");
      ("released", JStr "2023-01-31");
      ("planned", JStr "2024-03-15");
      ("updated", JStr "yesterday") ].

Definition reply (status : Z) (reason url : string) (body : result value)
    : Requests.outcome :=
  Requests.Returns
    {| Requests.status_code := status; Requests.reason := reason;
       Requests.url := url; Requests.json := body |}.

Definition network (u tmo : value) : Requests.outcome :=
  match u with
  | JStr s =>
      if String.eqb s "https://api.example.org/catalog/abc" then
        reply 200 "OK" s (inr (JDict document))
      else if String.eqb s "https://api.example.org/catalog/gone" then
        reply 404 "Not Found" s (inl ValueError)
      else if String.eqb s "https://api.example.org/catalog/many" then
        reply 300 "Multiple Choices" s (inr (JDict document))
      else if String.eqb s "https://example.org/" then
        reply 200 "OK" s (inl ValueError)
      else if String.eqb s "https://example.org/cached" then
        reply 304 "Not Modified" s (inl ValueError)
      else if String.eqb s "https://example.org/broken" then
        reply 500 "Internal Server Error" s (inl ValueError)
      else Requests.Raises (Requests ConnectionError "Connection refused")
  | _ => Requests.Raises (Requests RequestException "Invalid URL")
  end.

Definition strptime (s date_format : string) : option datetime :=
  if String.eqb date_format "%Y-%m-%d" then
    if String.eqb s "2023-01-31" then Some (midnight 2023 1 31)
    else if String.eqb s "2024-03-15" then Some (midnight 2024 3 15)
    else None
  else None.

Definition now : datetime :=
  {| year := 2023; month := 2; day := 1;
     hour := 9; minute := 30; second := 0; microsecond := 0 |}.

Definition py_str (v : value) : string :=
  match v with
  | JNull => "None"
  | JBool true => "True"
  | JBool false => "False"
  | JInt n => pretty n
  | _ => "<value>"
  end.

Definition client : CatalogAPI.obj :=
  CatalogAPI.instance "https://api.example.org/catalog" "abc" (JInt 30)
    (JDict document).

End Mock.

(** ** Properties claimed about fetch URLs: the two ways a join can go wrong *)

Module Claimed.
Import Py.

(** The fetch URL ends in a slash followed by the identifier. *)
Definition has_separator (fetch_url catalog_id : string) : bool :=
  endswith fetch_url ("/" +:+ catalog_id).

(** The fetch URL has two slashes right before the identifier. *)
Definition double_slash_at_join (fetch_url catalog_id : string) : bool :=
  endswith fetch_url ("//" +:+ catalog_id).

(** A status of the success class. *)
Definition status_2xx (status : Z) : bool :=
  (200 <=? status) && (status <? 300).

End Claimed.

(** * Properties *)

Import Py Datetime CatalogAPI.

(** ** Strings *)

Section StringFacts.

Lemma append_cons (x : ascii) (s t : string) :
  String x s +:+ t = String x (s +:+ t).
Proof. reflexivity. Qed.

Lemma list_ascii_append (s t : string) :
  list_ascii_of_string (s +:+ t)
  = (list_ascii_of_string s ++ list_ascii_of_string t)%list.
Proof.
  induction s as [|a s IH]; [reflexivity |].
  rewrite append_cons. simpl. now rewrite IH.
Qed.

Lemma append_assoc (a b c : string) : (a +:+ b) +:+ c = a +:+ (b +:+ c).
Proof.
  induction a as [|x a IH]; [reflexivity |].
  now rewrite !append_cons, IH.
Qed.

Lemma append_inv_tail (a b c : string) : a +:+ c = b +:+ c -> a = b.
Proof.
  intros H. apply (f_equal list_ascii_of_string) in H.
  rewrite !list_ascii_append in H. apply app_inv_tail in H.
  rewrite <- (string_of_list_ascii_of_string a),
          <- (string_of_list_ascii_of_string b).
  now rewrite H.
Qed.

Lemma endswith_nil (suffix : string) :
  endswith "" suffix = String.eqb "" suffix.
Proof. unfold endswith. apply orb_false_r. Qed.

Lemma endswith_cons (a : ascii) (s suffix : string) :
  endswith (String a s) suffix
  = String.eqb (String a s) suffix || endswith s suffix.
Proof. reflexivity. Qed.

Lemma endswith_spec (s suffix : string) :
  endswith s suffix = true <-> exists p, s = p +:+ suffix.
Proof.
  induction s as [|a s IH].
  - rewrite endswith_nil, String.eqb_eq. split.
    + intros <-. now exists "".
    + intros [[|b p] Hp]; [exact Hp | rewrite append_cons in Hp; discriminate].
  - rewrite endswith_cons, orb_true_iff, String.eqb_eq, IH. split.
    + intros [<- | [p ->]]; [now exists "" | now exists (String a p)].
    + intros [[|b p] Hp].
      * now left.
      * right. exists p. rewrite append_cons in Hp. now injection Hp.
Qed.

Lemma endswith_append (p suffix : string) : endswith (p +:+ suffix) suffix = true.
Proof. apply endswith_spec. now exists p. Qed.

Lemma endswith_append_tail (a b c : string) :
  endswith (a +:+ c) (b +:+ c) = endswith a b.
Proof.
  apply eq_iff_eq_true. rewrite !endswith_spec. split; intros [p Hp]; exists p.
  - rewrite <- append_assoc in Hp. now apply append_inv_tail in Hp.
  - subst a. apply append_assoc.
Qed.

Lemma endswith_two_slashes (s : string) :
  endswith s "/" = false -> endswith s "//" = false.
Proof.
  intros H. apply not_true_iff_false. intros H2.
  apply endswith_spec in H2 as [p ->].
  change "//" with ("/" +:+ "/") in H.
  now rewrite <- append_assoc, endswith_append in H.
Qed.

End StringFacts.

(** ** What each method does on an instance *)

Section Runs.

Variable network : value -> value -> Requests.outcome.
Variable strptime : string -> string -> option datetime.
Variable now : datetime.
Variable py_str : value -> string.

Lemma handled_all (c : requests_class) : existsb (issubclass c) handled = true.
Proof. destruct c; reflexivity. Qed.

Lemma http_error_msg_range (r : Requests.response) :
  400 <= Requests.status_code r < 600 <-> is_Some (Requests.http_error_msg r).
Proof.
  unfold Requests.http_error_msg.
  destruct (400 <=? _) eqn:E1, (_ <? 500) eqn:E2, (500 <=? _) eqn:E3,
           (_ <? 600) eqn:E4; simpl;
    (split; [intros ?; try (eexists; reflexivity); exfalso; lia
            | intros [? ?]; try discriminate; lia]).
Qed.

(** Once [raise_for_status] has returned, [ok] is true: the [if response.ok]
    of both methods never takes its implicit [else]. *)
Lemma ok_after_raise_for_status (r : Requests.response) :
  Requests.raise_for_status r = inr tt -> Requests.ok r = true.
Proof. unfold Requests.ok. now intros ->. Qed.

(** [_get_data] on an instance whose configuration is set: one GET to
    [request_url], and the answer turned into the result. *)
Lemma _get_data_run (u c : string) (t : value) (od : option value)
    (sent0 : list request) :
  let o := {| url := Some u; catalog_id := Some c; timeout := Some t; data := od |} in
  _get_data network {| self := o; sent := sent0 |}
  = (fetched (network (JStr (request_url u c)) t),
     {| self := o;
        sent := sent0 ++ [{| req_url := JStr (request_url u c); req_timeout := t |}] |}).
Proof.
  intros o. unfold fetched, _get_data, request_url, try_except, bind, self_url,
    self_catalog_id, self_timeout, getattr, requests_get, lift, ret, raise.
  simpl. destruct (endswith u "/"); simpl.
  all: destruct (network _ _) as [[cl msg| | | | |]|r]; simpl; try reflexivity.
  all: try (destruct cl; reflexivity).
  all: unfold Requests.ok, Requests.raise_for_status;
    destruct (Requests.http_error_msg r); simpl; [reflexivity |];
    destruct (Requests.json r) as [[cl msg| | | | |]|]; simpl;
    try reflexivity; destruct cl; reflexivity.
Qed.

Lemma new_run (u c : string) (t : value) (sent0 : list request) :
  new network sent0 u c t
  = (match fetched (network (JStr (request_url u c)) t) with
     | inr d => inr (instance u c t d)
     | inl e => inl e
     end,
     (sent0 ++ [{| req_url := JStr (request_url u c); req_timeout := t |}])%list).
Proof.
  unfold new, __init__, bind at 1 2 3 4. cbn [set_url set_catalog_id set_timeout self sent
    url catalog_id timeout data blank].
  rewrite _get_data_run. cbn.
  destruct (fetched _); reflexivity.
Qed.

Lemma check_key_exists_run (o : obj) (m : gmap string value) (key : string)
    (sent0 : list request) :
  data o = Some (JDict m) ->
  check_key_exists key {| self := o; sent := sent0 |}
  = (match m !! key with
     | Some v => inr v
     | None => inr False_
     end, {| self := o; sent := sent0 |}).
Proof.
  intros Hd. unfold check_key_exists, bind, self_data, getattr, lift, ret.
  cbn [self]. rewrite Hd. cbn [contains getitem].
  destruct (m !! key) as [v|] eqn:E.
  - rewrite bool_decide_eq_true_2 by eauto. cbn [self]. rewrite Hd.
    cbn [getitem]. now rewrite E.
  - rewrite bool_decide_eq_false_2; [reflexivity |]. now intros [? ?].
Qed.

Lemma check_url_valid_run (o : obj) (m : gmap string value) (key : string)
    (sent0 : list request) :
  data o = Some (JDict m) ->
  check_url_valid network py_str key {| self := o; sent := sent0 |}
  = match m !! key with
    | None => (inl (KeyError key), {| self := o; sent := sent0 |})
    | Some v =>
        (probed (format py_str v) (network v None_),
         {| self := o;
            sent := sent0 ++ [{| req_url := v; req_timeout := None_ |}] |})
    end.
Proof.
  intros Hd. unfold check_url_valid, try_except, bind, self_data, getattr,
    lift, ret, raise, requests_get, probed, not_valid.
  cbn [self sent]. rewrite Hd. cbn [getitem].
  destruct (m !! key) as [v|] eqn:E; [| reflexivity].
  destruct (network v None_) as [[cl msg| | | | |]|r]; try reflexivity.
  - rewrite handled_all. cbn [self]. rewrite Hd. cbn [getitem]. now rewrite E.
  - unfold Requests.ok, Requests.raise_for_status.
    destruct (Requests.http_error_msg r) as [msg|]; [| reflexivity].
    rewrite handled_all. cbn [self]. rewrite Hd. cbn [getitem]. now rewrite E.
Qed.

Lemma check_date_age_run (o : obj) (m : gmap string value)
    (key date_format : string) (sent0 : list request) :
  data o = Some (JDict m) ->
  check_date_age strptime now key date_format {| self := o; sent := sent0 |}
  = (match m !! key with
     | None => inl (KeyError key)
     | Some (JStr s) =>
         match strptime s date_format with
         | Some d => inr ((year now - year d) * 12 + month now - month d)
         | None => inl ValueError
         end
     | Some _ => inl TypeError
     end, {| self := o; sent := sent0 |}).
Proof.
  intros Hd. unfold check_date_age, bind, self_data, getattr, lift, ret,
    get_today, datetime_strptime, raise.
  cbn [self]. rewrite Hd. cbn [getitem].
  destruct (m !! key) as [[]|]; try reflexivity.
  destruct (strptime s date_format); reflexivity.
Qed.

End Runs.

(** ** Methods that leave the instance alone *)

Section Preservation.

Context {A B : Type}.

Lemma preserves_ret (a : A) : preserves_self (ret a).
Proof. now intros st. Qed.

Lemma preserves_raise (e : exn) : preserves_self (@raise A e).
Proof. now intros st. Qed.

Lemma preserves_lift (r : result A) : preserves_self (lift r).
Proof. now intros st. Qed.

Lemma preserves_getattr (name : string) (field : obj -> option A) :
  preserves_self (getattr name field).
Proof. intros st. unfold getattr. now destruct (field (self st)). Qed.

Lemma preserves_bind (c : M A) (k : A -> M B) :
  preserves_self c -> (forall a, preserves_self (k a)) ->
  preserves_self (bind c k).
Proof.
  intros Hc Hk st. unfold bind. specialize (Hc st).
  destruct (c st) as [[e|a] st']; cbn in *; [exact Hc |].
  now rewrite Hk.
Qed.

Lemma preserves_try_except (body : M A) (classes : list requests_class)
    (handler : requests_class -> string -> M A) :
  preserves_self body -> (forall c msg, preserves_self (handler c msg)) ->
  preserves_self (try_except body classes handler).
Proof.
  intros Hb Hh st. unfold try_except. specialize (Hb st).
  destruct (body st) as [[[c msg| | | | |]|a] st']; cbn in *; try exact Hb.
  destruct (existsb _ _); [| exact Hb]. now rewrite Hh.
Qed.

End Preservation.

Lemma preserves_requests_get network (u tmo : value) :
  preserves_self (requests_get network u tmo).
Proof. intros st. unfold requests_get. now destruct (network u tmo). Qed.

Lemma preserves_datetime_strptime strptime (v : value) (date_format : string) :
  preserves_self (datetime_strptime strptime v date_format).
Proof.
  intros st. unfold datetime_strptime.
  destruct v; try reflexivity. now destruct (strptime s date_format).
Qed.

Create HintDb preserve.

#[local] Hint Resolve preserves_ret preserves_raise preserves_lift
  preserves_getattr preserves_requests_get preserves_datetime_strptime
  : preserve.

Ltac preserve :=
  repeat first
    [ apply preserves_bind; [| intros ?]
    | apply preserves_try_except; [| intros ? ?]
    | match goal with |- preserves_self (if ?b then _ else _) => destruct b end
    | solve [ auto with preserve ] ].

Lemma preserves_check_key_exists (key : string) :
  preserves_self (check_key_exists key).
Proof. unfold check_key_exists, self_data. preserve. Qed.

Lemma preserves_check_url_valid network py_str (key : string) :
  preserves_self (check_url_valid network py_str key).
Proof. unfold check_url_valid, self_data. preserve. Qed.

Lemma preserves_check_date_age strptime now (key date_format : string) :
  preserves_self (check_date_age strptime now key date_format).
Proof. unfold check_date_age, self_data, get_today. preserve. Qed.

(** ** Truth values *)


(** ** [check_key_exists] *)




(** C9, as claimed, fails: the key "active" is present with the true value
    [True], and the result is a boolean. *)
Lemma check_key_exists_bool_counterexample :
  ~ (forall r,
       fst (check_key_exists "active" {| self := Mock.client; sent := [] |}) = inr r ->
       is_bool r = true ->
       Mock.document !! "active" = None
       \/ exists v, Mock.document !! "active" = Some v /\ truthy v = false).
Proof.
  intros H. destruct (H (JBool true) eq_refl eq_refl) as [H0 | (v & Hv & Hf)].
  - vm_compute in H0. discriminate.
  - vm_compute in Hv. injection Hv as <-. discriminate.
Qed.

(** C9, amended. On a document that is a mapping, [check_key_exists] never
    raises, sends nothing and changes nothing; for a key that is present it
    returns the stored value itself, whether true or false, and for an absent
    key [False]: its result is a boolean exactly when the key is absent or the
    stored value is itself a boolean. *)
Theorem check_key_exists_total (u c : string) (t : value)
    (m : gmap string value) (key : string) (sent0 : list request) :
  let st := {| self := instance u c t (JDict m); sent := sent0 |} in
  exists r,
    check_key_exists key st = (inr r, st)
    /\ (forall v, m !! key = Some v -> r = v)
    /\ (m !! key = None -> r = False_)
    /\ (is_bool r = true <->
        m !! key = None \/ exists b, m !! key = Some (JBool b)).
Proof.
  intros st. unfold st. rewrite (check_key_exists_run _ m) by reflexivity.
  destruct (m !! key) as [v|] eqn:E.
  - exists v. split; [reflexivity |]. split; [| split; [| split]].
    + now intros w [= <-].
    + discriminate.
    + intros H. right. destruct v; try discriminate. now exists b.
    + intros [[=] | (b & [= ->])]. reflexivity.
  - exists False_. split; [reflexivity |]. split; [| split; [| split]].
    + discriminate.
    + reflexivity.
    + now left.
    + reflexivity.
Qed.

Lemma check_key_exists_total_witness :
  fst (check_key_exists "description" {| self := Mock.client; sent := [] |})
  = inr (JStr "").
Proof.
  destruct (check_key_exists_total "https://api.example.org/catalog" "abc"
              (JInt 30) Mock.document "description" []) as (r & Hr & Hv & _).
  change (instance _ _ _ _) with Mock.client in Hr. rewrite Hr. cbn [fst].
  f_equal. apply Hv. reflexivity.
Defined.

(** ** [check_date_age] *)

Lemma valid_month (d : datetime) : valid d = true -> 1 <= month d <= 12.
Proof.
  unfold valid. rewrite !andb_true_iff, !Z.leb_le. intros H. lia.
Qed.

(** C2. When the value at the key is a string that the date format parses,
    [check_date_age] returns the difference in calendar months between the
    clock and the parsed date, (now.year - d.year) * 12 + now.month - d.month,
    in which the day of the month plays no part. *)
Theorem check_date_age_formula (strptime : string -> string -> option datetime)
    (now : datetime) (u c : string) (t : value) (m : gmap string value)
    (key date_format s : string) (d : datetime) (sent0 : list request) :
  m !! key = Some (JStr s) ->
  strptime s date_format = Some d ->
  fst (check_date_age strptime now key date_format
         {| self := instance u c t (JDict m); sent := sent0 |})
  = inr ((year now - year d) * 12 + month now - month d).
Proof.
  intros Hk Hp. rewrite (check_date_age_run _ _ _ m) by reflexivity.
  now rewrite Hk, Hp.
Qed.

(** The date 2023-01-31 read on 2023-02-01 is one month old. *)
Lemma check_date_age_formula_witness :
  Mock.document !! "released" = Some (JStr "2023-01-31")
  /\ Mock.strptime "2023-01-31" "%Y-%m-%d" = Some (Mock.midnight 2023 1 31)
  /\ (year Mock.now, month Mock.now, day Mock.now) = (2023, 2, 1)
  /\ fst (check_date_age Mock.strptime Mock.now "released" "%Y-%m-%d"
            {| self := Mock.client; sent := [] |}) = inr 1.
Proof.
  split; [reflexivity |]. split; [reflexivity |]. split; [reflexivity |].
  apply (check_date_age_formula Mock.strptime Mock.now
           "https://api.example.org/catalog" "abc" (JInt 30) Mock.document
           "released" "%Y-%m-%d" "2023-01-31" (Mock.midnight 2023 1 31) []);
    reflexivity.
Defined.

(** C10. When the parsed date lies in a calendar month after the month of the
    clock, [check_date_age] returns a negative number: nothing clamps the
    result at zero. *)
Theorem check_date_age_future (strptime : string -> string -> option datetime)
    (now : datetime) (u c : string) (t : value) (m : gmap string value)
    (key date_format s : string) (d : datetime) (sent0 : list request) :
  m !! key = Some (JStr s) ->
  strptime s date_format = Some d ->
  valid d = true ->
  valid now = true ->
  year now < year d \/ (year now = year d /\ month now < month d) ->
  exists n,
    fst (check_date_age strptime now key date_format
           {| self := instance u c t (JDict m); sent := sent0 |}) = inr n
    /\ n < 0.
Proof.
  intros Hk Hp Hd Hn Hlater.
  rewrite (check_date_age_run _ _ _ m) by reflexivity. rewrite Hk, Hp.
  eexists. split; [reflexivity |].
  apply valid_month in Hd, Hn. lia.
Qed.

(** A date of March 2024 read in February 2023 is some months ahead. *)
Lemma check_date_age_future_witness :
  exists n,
    fst (check_date_age Mock.strptime Mock.now "planned" "%Y-%m-%d"
           {| self := Mock.client; sent := [] |}) = inr n
    /\ n < 0.
Proof.
  apply (check_date_age_future Mock.strptime Mock.now
           "https://api.example.org/catalog" "abc" (JInt 30) Mock.document
           "planned" "%Y-%m-%d" "2024-03-15" (Mock.midnight 2024 3 15) []).
  - reflexivity.
  - reflexivity.
  - reflexivity.
  - reflexivity.
  - left. cbn. lia.
Defined.

(** C7. [check_date_age] raises, and so returns no number, whenever the key
    is absent ([KeyError]) or the value at the key cannot be parsed with the
    date format: [ValueError] for a string the format does not parse,
    [TypeError] for a value that is not a string. *)
Theorem check_date_age_raises (strptime : string -> string -> option datetime)
    (now : datetime) (u c : string) (t : value) (m : gmap string value)
    (key date_format : string) (sent0 : list request) :
  m !! key = None
  \/ (exists v, m !! key = Some v
                /\ match v with
                   | JStr s => strptime s date_format = None
                   | _ => True
                   end) ->
  exists e,
    fst (check_date_age strptime now key date_format
           {| self := instance u c t (JDict m); sent := sent0 |}) = inl e
    /\ match m !! key with
       | None => e = KeyError key
       | Some (JStr _) => e = ValueError
       | Some _ => e = TypeError
       end.
Proof.
  intros H. rewrite (check_date_age_run _ _ _ m) by reflexivity. cbn [fst].
  destruct H as [-> | (v & -> & Hv)]; [now eexists |].
  destruct v; try (now eexists). rewrite Hv. now eexists.
Qed.

Lemma check_date_age_raises_witness :
  fst (check_date_age Mock.strptime Mock.now "updated" "%Y-%m-%d"
         {| self := Mock.client; sent := [] |}) = inl ValueError
  /\ fst (check_date_age Mock.strptime Mock.now "licence" "%Y-%m-%d"
            {| self := Mock.client; sent := [] |}) = inl (KeyError "licence").
Proof.
  split.
  - destruct (check_date_age_raises Mock.strptime Mock.now
                "https://api.example.org/catalog" "abc" (JInt 30) Mock.document
                "updated" "%Y-%m-%d" []) as (e & He & Hm).
    + right. exists (JStr "yesterday"). split; reflexivity.
    + vm_compute in Hm. subst e. exact He.
  - destruct (check_date_age_raises Mock.strptime Mock.now
                "https://api.example.org/catalog" "abc" (JInt 30) Mock.document
                "licence" "%Y-%m-%d" []) as (e & He & Hm).
    + left. reflexivity.
    + vm_compute in Hm. subst e. exact He.
Defined.

(** ** [check_url_valid] *)

(** C3, as claimed, fails: the URL stored at "cached" answers 304, which is
    not a 2xx status, and [check_url_valid] raises nothing. *)
Lemma check_url_valid_failure_counterexample :
  ~ (forall v resp,
       Mock.document !! "cached" = Some v ->
       Mock.network v None_ = Requests.Returns resp ->
       Claimed.status_2xx (Requests.status_code resp) = false ->
       exists a,
         fst (check_url_valid Mock.network Mock.py_str "cached"
                {| self := Mock.client; sent := [] |})
         = inl (CriticalException a)).
Proof.
  intros H.
  destruct (H (JStr "https://example.org/cached") _ eq_refl eq_refl eq_refl)
    as [a Ha].
  vm_compute in Ha. discriminate.
Qed.

(** C3, amended. For a key that is present, when the GET to the stored value
    raises an exception of [requests] (connection failure, timeout, too many
    redirects, ...) or is answered with a status from 400 to 599,
    [check_url_valid] raises [CriticalException] with the message
    "URL <value> not valid: <cause>", where a string value is printed as it
    is; in no case does it return [False]. An answer with any other status,
    2xx or not, is no failure: nothing is raised and [True] is returned. *)
Theorem check_url_valid_failure (network : value -> value -> Requests.outcome)
    (py_str : value -> string) (u c : string) (t : value)
    (m : gmap string value) (key : string) (v : value) (sent0 : list request) :
  m !! key = Some v ->
  let r := fst (check_url_valid network py_str key
                  {| self := instance u c t (JDict m); sent := sent0 |}) in
  (forall cl msg,
     network v None_ = Requests.Raises (Requests cl msg) ->
     r = inl (CriticalException
                (ArgStr ("URL " +:+ format py_str v +:+ " not valid: " +:+ msg))))
  /\ (forall resp,
        network v None_ = Requests.Returns resp ->
        400 <= Requests.status_code resp < 600 ->
        exists msg,
          Requests.http_error_msg resp = Some msg
          /\ r = inl (CriticalException
                       (ArgStr ("URL " +:+ format py_str v +:+ " not valid: " +:+ msg))))
  /\ (forall resp,
        network v None_ = Requests.Returns resp ->
        ~ 400 <= Requests.status_code resp < 600 ->
        r = inr True_)
  /\ (forall s, v = JStr s -> format py_str v = s)
  /\ r <> inr False_.
Proof.
  intros Hk r. unfold r. rewrite (check_url_valid_run _ _ _ m) by reflexivity.
  rewrite Hk. cbn [fst]. split; [| split; [| split; [| split]]].
  - intros cl msg ->. reflexivity.
  - intros resp -> Hs. apply http_error_msg_range in Hs as [msg Hmsg].
    exists msg. split; [exact Hmsg |]. cbn. now rewrite Hmsg.
  - intros resp -> Hs. cbn.
    destruct (Requests.http_error_msg resp) eqn:E; [| reflexivity].
    exfalso. apply Hs, http_error_msg_range. eauto.
  - now intros s ->.
  - unfold probed. destruct (network v None_) as [[]|resp]; try discriminate.
    destruct (Requests.http_error_msg resp); discriminate.
Qed.

(** A URL answering 500 is reported by name, with the status as cause. *)
Lemma check_url_valid_failure_witness :
  fst (check_url_valid Mock.network Mock.py_str "broken"
         {| self := Mock.client; sent := [] |})
  = inl (CriticalException
           (ArgStr "URL https://example.org/broken not valid: 500 Server Error: Internal Server Error for url: https://example.org/broken"))
  /\ fst (check_url_valid Mock.network Mock.py_str "cached"
            {| self := Mock.client; sent := [] |}) = inr True_.
Proof.
  split.
  - destruct (check_url_valid_failure Mock.network Mock.py_str
                "https://api.example.org/catalog" "abc" (JInt 30) Mock.document
                "broken" (JStr "https://example.org/broken") [] eq_refl)
      as (_ & Hstatus & _).
    destruct (Hstatus _ eq_refl) as (msg & Hmsg & Hr).
    + cbn. lia.
    + injection Hmsg as <-. exact Hr.
  - destruct (check_url_valid_failure Mock.network Mock.py_str
                "https://api.example.org/catalog" "abc" (JInt 30) Mock.document
                "cached" (JStr "https://example.org/cached") [] eq_refl)
      as (_ & _ & Hother & _).
    apply (Hother _ eq_refl). cbn. lia.
Defined.

(** C5, as claimed, fails: the URL stored at "cached" answers 304, which is
    not a 2xx status, and [check_url_valid] returns [True]. *)
Lemma check_url_valid_true_counterexample :
  ~ (forall v resp,
       Mock.document !! "cached" = Some v ->
       Mock.network v None_ = Requests.Returns resp ->
       fst (check_url_valid Mock.network Mock.py_str "cached"
              {| self := Mock.client; sent := [] |}) = inr True_ ->
       Claimed.status_2xx (Requests.status_code resp) = true).
Proof.
  intros H.
  specialize (H (JStr "https://example.org/cached") _ eq_refl eq_refl eq_refl).
  vm_compute in H. discriminate.
Qed.

(** C5, amended. For a key that is present, [check_url_valid] returns [True]
    exactly when the GET to the stored value is answered with a status
    outside 400..599; every 2xx status, 200 among them, is such a status. *)
Theorem check_url_valid_true (network : value -> value -> Requests.outcome)
    (py_str : value -> string) (u c : string) (t : value)
    (m : gmap string value) (key : string) (v : value) (sent0 : list request) :
  m !! key = Some v ->
  let r := fst (check_url_valid network py_str key
                  {| self := instance u c t (JDict m); sent := sent0 |}) in
  (r = inr True_ <->
   exists resp, network v None_ = Requests.Returns resp
                /\ ~ 400 <= Requests.status_code resp < 600)
  /\ (forall resp,
        network v None_ = Requests.Returns resp ->
        Claimed.status_2xx (Requests.status_code resp) = true ->
        r = inr True_).
Proof.
  intros Hk r. unfold r. rewrite (check_url_valid_run _ _ _ m) by reflexivity.
  rewrite Hk. cbn [fst].
  assert (Hout : forall resp, ~ 400 <= Requests.status_code resp < 600 ->
                 probed (format py_str v) (Requests.Returns resp) = inr True_).
  { intros resp Hs. cbn. destruct (Requests.http_error_msg resp) eqn:E;
      [| reflexivity].
    exfalso. apply Hs, http_error_msg_range. eauto. }
  split; [split |].
  - destruct (network v None_) as [[]|resp]; try discriminate.
    intros H. exists resp. split; [reflexivity |].
    intros Hs. apply http_error_msg_range in Hs as [msg Hmsg].
    cbn in H. rewrite Hmsg in H. discriminate.
  - intros (resp & -> & Hs). now apply Hout.
  - intros resp -> Hs. apply Hout. unfold Claimed.status_2xx in Hs.
    apply andb_true_iff in Hs as [H1 H2].
    apply Z.leb_le in H1. apply Z.ltb_lt in H2. lia.
Qed.

(** A URL answering 200 is valid. *)
Lemma check_url_valid_true_witness :
  fst (check_url_valid Mock.network Mock.py_str "website"
         {| self := Mock.client; sent := [] |}) = inr True_.
Proof.
  destruct (check_url_valid_true Mock.network Mock.py_str
              "https://api.example.org/catalog" "abc" (JInt 30) Mock.document
              "website" (JStr "https://example.org/") [] eq_refl)
    as (_ & H2xx).
  apply (H2xx _ eq_refl). reflexivity.
Defined.

(** ** Construction *)

(** C4, as claimed, fails: the catalog entry "many" is answered with 300,
    which is not a 2xx status, and construction raises nothing: it returns an
    instance. *)
Lemma construction_failure_counterexample :
  ~ (forall resp,
       Mock.network
         (JStr (request_url "https://api.example.org/catalog" "many")) (JInt 30)
       = Requests.Returns resp ->
       Claimed.status_2xx (Requests.status_code resp) = false ->
       exists a,
         fst (new Mock.network [] "https://api.example.org/catalog" "many" (JInt 30))
         = inl (CriticalException a)).
Proof.
  intros H. destruct (H _ eq_refl eq_refl) as [a Ha].
  vm_compute in Ha. discriminate.
Qed.

(** C4, amended. When the GET of the catalog entry raises an exception of
    [requests] (connection failure, timeout, too many redirects, ...) or is
    answered with a status from 400 to 599, such as 404, construction raises
    [CriticalException] carrying that exception, and the caller gets no
    instance. An answer with any other status, 2xx or not, is no failure:
    when its body parses, construction returns an instance holding that
    body. An instance is returned only so, with every attribute assigned. *)
Theorem construction_failure (network : value -> value -> Requests.outcome)
    (url catalog_id : string) (timeout : value) (sent0 : list request) :
  let answer := network (JStr (request_url url catalog_id)) timeout in
  let made := fst (new network sent0 url catalog_id timeout) in
  (forall cl msg,
     answer = Requests.Raises (Requests cl msg) ->
     made = inl (CriticalException (ArgExc cl msg)))
  /\ (forall resp,
        answer = Requests.Returns resp ->
        400 <= Requests.status_code resp < 600 ->
        exists msg,
          Requests.http_error_msg resp = Some msg
          /\ made = inl (CriticalException (ArgExc HTTPError msg)))
  /\ (forall resp d,
        answer = Requests.Returns resp ->
        ~ 400 <= Requests.status_code resp < 600 ->
        Requests.json resp = inr d ->
        made = inr (instance url catalog_id timeout d))
  /\ (forall o,
        made = inr o ->
        exists resp d,
          answer = Requests.Returns resp
          /\ ~ 400 <= Requests.status_code resp < 600
          /\ Requests.json resp = inr d
          /\ o = instance url catalog_id timeout d).
Proof.
  intros answer made. unfold made, answer. rewrite new_run. cbn [fst].
  split; [| split; [| split]].
  - intros cl msg ->. reflexivity.
  - intros resp -> Hs. apply http_error_msg_range in Hs as [msg Hmsg].
    exists msg. split; [exact Hmsg |]. cbn. now rewrite Hmsg.
  - intros resp d -> Hs Hj. cbn.
    destruct (Requests.http_error_msg resp) eqn:E.
    + exfalso. apply Hs, http_error_msg_range. eauto.
    + now rewrite Hj.
  - intros o. destruct (network _ _) as [[]|resp]; try discriminate.
    cbn. destruct (Requests.http_error_msg resp) as [msg|] eqn:E;
      [discriminate |].
    destruct (Requests.json resp) as [[]|d] eqn:Ej; try discriminate.
    intros [= <-]. exists resp, d. split; [reflexivity |].
    split; [| split; [exact Ej | reflexivity]].
    intros Hs. apply http_error_msg_range in Hs as [msg Hmsg]. congruence.
Qed.

(** Construction against an entry answered with 404. *)
Lemma construction_failure_witness :
  fst (new Mock.network [] "https://api.example.org/catalog" "gone" (JInt 30))
  = inl (CriticalException
           (ArgExc HTTPError
              "404 Client Error: Not Found for url: https://api.example.org/catalog/gone"))
  /\ fst (new Mock.network [] "https://api.example.org/catalog" "many" (JInt 30))
     = inr (instance "https://api.example.org/catalog" "many" (JInt 30)
              (JDict Mock.document)).
Proof.
  split.
  - destruct (construction_failure Mock.network
                "https://api.example.org/catalog" "gone" (JInt 30) [])
      as (_ & Hstatus & _).
    destruct (Hstatus _ eq_refl) as (msg & Hmsg & Hmade).
    + cbn. lia.
    + injection Hmsg as <-. exact Hmade.
  - destruct (construction_failure Mock.network
                "https://api.example.org/catalog" "many" (JInt 30) [])
      as (_ & _ & Hother & _).
    apply (Hother _ _ eq_refl); [cbn; lia | reflexivity].
Defined.

(** C6, as claimed, fails: for a base URL that ends in two slashes the URL
    that is fetched, "https://api.example.org/catalog//abc", has two slashes
    right before the identifier. *)
Lemma fetch_url_join_counterexample :
  ~ (forall q,
       In q (snd (new Mock.network [] "https://api.example.org/catalog//" "abc"
                    (JInt 30))) ->
       exists fetch_url,
         req_url q = JStr fetch_url
         /\ Claimed.double_slash_at_join fetch_url "abc" = false).
Proof.
  intros H.
  destruct (H {| req_url := JStr "https://api.example.org/catalog//abc";
                 req_timeout := JInt 30 |}) as (f & Hf & Hjoin).
  - left. reflexivity.
  - injection Hf as <-. vm_compute in Hjoin. discriminate.
Qed.

(** C6, amended. Construction sends one GET, with the given timeout, to the
    base URL followed by the identifier, a slash being put between them
    unless the base URL ends in one. That URL always ends in a slash followed
    by the identifier, so the separator is never left out, and it has two
    slashes right before the identifier exactly when the base URL itself ends
    in two slashes. *)
Theorem fetch_url_join (network : value -> value -> Requests.outcome)
    (url catalog_id : string) (timeout : value) :
  snd (new network [] url catalog_id timeout)
  = [{| req_url := JStr (request_url url catalog_id); req_timeout := timeout |}]
  /\ Claimed.has_separator (request_url url catalog_id) catalog_id = true
  /\ Claimed.double_slash_at_join (request_url url catalog_id) catalog_id
     = endswith url "//".
Proof.
  rewrite new_run. split; [reflexivity |].
  unfold Claimed.has_separator, Claimed.double_slash_at_join, request_url.
  destruct (endswith url "/") eqn:E.
  - split.
    + apply endswith_spec in E as [p ->].
      rewrite append_assoc. apply endswith_append.
    + apply endswith_append_tail.
  - split.
    + apply endswith_append.
    + rewrite (endswith_two_slashes _ E).
      rewrite <- (append_assoc url "/" catalog_id).
      rewrite (endswith_append_tail (url +:+ "/") "//" catalog_id).
      change "//" with ("/" +:+ "/").
      rewrite (endswith_append_tail url "/" "/"). exact E.
Qed.

(** With or without a trailing slash the same entry is fetched. *)
Example request_url_slash :
  request_url "https://api.example.org/catalog" "abc"
  = "https://api.example.org/catalog/abc"
  /\ request_url "https://api.example.org/catalog/" "abc"
     = "https://api.example.org/catalog/abc".
Proof. split; reflexivity. Qed.

(** ** The instance after construction *)

(** C8. An instance that construction has returned holds the base URL, the
    identifier and the timeout it was given and the document that was
    fetched, and each of the three checks leaves every one of these
    attributes as it is, whatever the check returns or raises. *)
Theorem queries_leave_client_unchanged
    (network network' : value -> value -> Requests.outcome)
    (strptime : string -> string -> option datetime) (now : datetime)
    (py_str : value -> string) (url catalog_id : string) (timeout : value)
    (sent0 sent1 : list request) (o : obj) :
  new network sent0 url catalog_id timeout = (inr o, sent1) ->
  (exists d, o = instance url catalog_id timeout d)
  /\ forall (key date_format : string) (sent2 : list request),
       self (snd (check_key_exists key {| self := o; sent := sent2 |})) = o
       /\ self (snd (check_url_valid network' py_str key
                       {| self := o; sent := sent2 |})) = o
       /\ self (snd (check_date_age strptime now key date_format
                       {| self := o; sent := sent2 |})) = o.
Proof.
  intros Hnew. split.
  - rewrite new_run in Hnew. destruct (fetched _) as [e|d]; [discriminate |].
    injection Hnew as <- _. now exists d.
  - intros key date_format sent2. split; [| split].
    + apply (preserves_check_key_exists key).
    + apply (preserves_check_url_valid network' py_str key).
    + apply (preserves_check_date_age strptime now key date_format).
Qed.

Lemma queries_leave_client_unchanged_witness :
  new Mock.network [] "https://api.example.org/catalog" "abc" (JInt 30)
  = (inr Mock.client,
     [{| req_url := JStr "https://api.example.org/catalog/abc";
         req_timeout := JInt 30 |}])
  /\ self (snd (check_url_valid Mock.network Mock.py_str "broken"
                  {| self := Mock.client; sent := [] |})) = Mock.client.
Proof.
  assert (Hnew : new Mock.network [] "https://api.example.org/catalog" "abc" (JInt 30)
                 = (inr Mock.client,
                    [{| req_url := JStr "https://api.example.org/catalog/abc";
                        req_timeout := JInt 30 |}])) by reflexivity.
  split; [exact Hnew |].
  destruct (queries_leave_client_unchanged Mock.network Mock.network
              Mock.strptime Mock.now Mock.py_str _ _ _ _ _ _ Hnew)
    as (_ & Hsame).
  destruct (Hsame "broken" "%Y-%m-%d" []) as (_ & Hurl & _).
  exact Hurl.
Defined.

(** * Further properties of the module *)

(** ** Documents of any shape *)

Section AnyDocument.

Variable network : value -> value -> Requests.outcome.
Variable strptime : string -> string -> option datetime.
Variable now : datetime.
Variable py_str : value -> string.

Lemma check_key_exists_any (o : obj) (d : value) (key : string)
    (sent0 : list request) :
  data o = Some d ->
  check_key_exists key {| self := o; sent := sent0 |}
  = (match contains d key with
     | inl e => inl e
     | inr true => getitem d key
     | inr false => inr False_
     end, {| self := o; sent := sent0 |}).
Proof.
  intros Hd. unfold check_key_exists, bind, self_data, getattr, lift, ret.
  cbn [self]. rewrite Hd. destruct (contains d key) as [e|[]]; try reflexivity.
  cbn [self]. now rewrite Hd.
Qed.

Lemma getitem_not_mapping (d : value) (key : string) :
  (forall m, d <> JDict m) -> getitem d key = inl TypeError.
Proof. intros H. destruct d; try reflexivity. now destruct (H m). Qed.

Lemma check_url_valid_not_mapping (o : obj) (d : value) (key : string)
    (sent0 : list request) :
  data o = Some d -> (forall m, d <> JDict m) ->
  check_url_valid network py_str key {| self := o; sent := sent0 |}
  = (inl TypeError, {| self := o; sent := sent0 |}).
Proof.
  intros Hd Hm. unfold check_url_valid, try_except, bind, self_data, getattr,
    lift. cbn [self]. now rewrite Hd, (getitem_not_mapping _ _ Hm).
Qed.

Lemma check_date_age_not_mapping (o : obj) (d : value)
    (key date_format : string) (sent0 : list request) :
  data o = Some d -> (forall m, d <> JDict m) ->
  check_date_age strptime now key date_format {| self := o; sent := sent0 |}
  = (inl TypeError, {| self := o; sent := sent0 |}).
Proof.
  intros Hd Hm. unfold check_date_age, bind, self_data, getattr, lift.
  cbn [self]. now rewrite Hd, (getitem_not_mapping _ _ Hm).
Qed.

End AnyDocument.

(** X1. On a mapping document without the key, [check_url_valid] raises the
    [KeyError] of [self.data[key]] as it is (the handler does not catch it),
    sends no request and leaves the instance alone. *)
Theorem check_url_valid_missing_key (network : value -> value -> Requests.outcome)
    (py_str : value -> string) (u c : string) (t : value)
    (m : gmap string value) (key : string) (sent0 : list request) :
  m !! key = None ->
  let st := {| self := instance u c t (JDict m); sent := sent0 |} in
  check_url_valid network py_str key st = (inl (KeyError key), st).
Proof.
  intros Hk st. unfold st. rewrite (check_url_valid_run _ _ _ m) by reflexivity.
  now rewrite Hk.
Qed.

Lemma check_url_valid_missing_key_witness :
  check_url_valid Mock.network Mock.py_str "licence"
    {| self := Mock.client; sent := [] |}
  = (inl (KeyError "licence"), {| self := Mock.client; sent := [] |}).
Proof.
  apply (check_url_valid_missing_key Mock.network Mock.py_str
           "https://api.example.org/catalog" "abc" (JInt 30) Mock.document
           "licence" []).
  reflexivity.
Defined.

(** X2. Whatever the instance and the network, a value that
    [check_url_valid] returns is [True]: it returns neither [False] nor the
    [None] of a function that falls off its end. *)
Theorem check_url_valid_returns_true (network : value -> value -> Requests.outcome)
    (py_str : value -> string) (key : string) (st : state) (v : value) :
  fst (check_url_valid network py_str key st) = inr v -> v = True_.
Proof.
  destruct st as [o sent0]. destruct (data o) as [d|] eqn:Ed.
  - destruct d as [| | | | | |m].
    1-6: rewrite (check_url_valid_not_mapping _ _ _ _ key sent0 Ed)
           by discriminate; discriminate.
    rewrite (check_url_valid_run _ _ _ m key sent0 Ed).
    destruct (m !! key) as [w|]; [| discriminate]. cbn [fst]. unfold probed.
    destruct (network w None_) as [[]|r]; try discriminate.
    destruct (Requests.http_error_msg r); [discriminate |].
    now intros [= <-].
  - unfold check_url_valid, try_except, bind, self_data, getattr.
    cbn [self]. rewrite Ed. discriminate.
Qed.

Lemma check_url_valid_returns_true_witness :
  fst (check_url_valid Mock.network Mock.py_str "cached"
         {| self := Mock.client; sent := [] |}) = inr (JBool true)
  /\ JBool true = True_.
Proof.
  split; [reflexivity |].
  apply (check_url_valid_returns_true Mock.network Mock.py_str "cached"
           {| self := Mock.client; sent := [] |} (JBool true)).
  reflexivity.
Defined.

(** X3. On a mapping document with the key, [check_url_valid] sends exactly
    one GET, to the stored value and without a timeout, whether the answer
    makes it return or raise. *)
Theorem check_url_valid_one_request (network : value -> value -> Requests.outcome)
    (py_str : value -> string) (u c : string) (t : value)
    (m : gmap string value) (key : string) (v : value) (sent0 : list request) :
  m !! key = Some v ->
  sent (snd (check_url_valid network py_str key
               {| self := instance u c t (JDict m); sent := sent0 |}))
  = (sent0 ++ [{| req_url := v; req_timeout := None_ |}])%list.
Proof.
  intros Hk. rewrite (check_url_valid_run _ _ _ m) by reflexivity.
  now rewrite Hk.
Qed.

Lemma check_url_valid_one_request_witness :
  sent (snd (check_url_valid Mock.network Mock.py_str "broken"
               {| self := Mock.client; sent := [] |}))
  = [{| req_url := JStr "https://example.org/broken"; req_timeout := JNull |}].
Proof.
  apply (check_url_valid_one_request Mock.network Mock.py_str
           "https://api.example.org/catalog" "abc" (JInt 30) Mock.document
           "broken" (JStr "https://example.org/broken") []).
  reflexivity.
Defined.

(** *** Membership in a list and in a string *)

Lemma existsb_str_In (l : list value) (key : string) :
  existsb (fun v => match v with
                    | JStr s => String.eqb s key
                    | _ => false
                    end) l = true
  <-> In (JStr key) l.
Proof.
  induction l as [|a l IH]; [split; [discriminate | intros []] |].
  cbn [existsb In]. rewrite orb_true_iff, IH. split.
  - intros [H | H]; [left | now right].
    destruct a; try discriminate. apply String.eqb_eq in H. now subst.
  - intros [-> | H]; [left | now right]. apply String.eqb_refl.
Qed.

Lemma prefix_nil (s : string) : String.prefix "" s = true.
Proof. destruct s; reflexivity. Qed.

Lemma prefix_cons (a : ascii) (s1 : string) (b : ascii) (s2 : string) :
  String.prefix (String a s1) (String b s2)
  = if ascii_dec a b then String.prefix s1 s2 else false.
Proof. reflexivity. Qed.

Lemma prefix_spec (s1 s2 : string) :
  String.prefix s1 s2 = true <-> exists q, s2 = s1 +:+ q.
Proof.
  revert s2. induction s1 as [|a s1 IH]; intros s2.
  - rewrite prefix_nil. split; [intros _; now exists s2 | reflexivity].
  - destruct s2 as [|b s2].
    + split; [discriminate | intros [q Hq]; discriminate].
    + rewrite prefix_cons. destruct (ascii_dec a b) as [->|Hne].
      * rewrite IH. split; intros [q Hq]; exists q.
        -- now rewrite Hq.
        -- now injection Hq.
      * split; [discriminate |]. intros [q Hq]. injection Hq as Hab _.
        now destruct Hne.
Qed.

Lemma index_nil (s1 : string) :
  String.index 0 s1 "" = match s1 with "" => Some 0%nat | _ => None end.
Proof. reflexivity. Qed.

Lemma index_cons (s1 : string) (b : ascii) (s2 : string) :
  String.index 0 s1 (String b s2)
  = if String.prefix s1 (String b s2) then Some 0%nat
    else match String.index 0 s1 s2 with
         | Some n => Some (S n)
         | None => None
         end.
Proof. reflexivity. Qed.

(** [index 0 key s] finds something exactly when [key] occurs in [s]. *)
Lemma index_spec (key s : string) :
  is_Some (String.index 0 key s) <-> exists p q, s = p +:+ key +:+ q.
Proof.
  induction s as [|b s IH].
  - rewrite index_nil. split.
    + destruct key; [intros _; now exists "", "" | intros [? ?]; discriminate].
    + intros (p & q & H). destruct p; [| discriminate].
      destruct key; [eauto | discriminate].
  - rewrite index_cons. destruct (String.prefix key (String b s)) eqn:E.
    + split; [intros _ | eauto]. apply prefix_spec in E as [q Hq].
      now exists "", q.
    + split.
      * intros H. destruct (String.index 0 key s) eqn:Ei; [| now destruct H].
        destruct (proj1 IH) as (p & q & ->); [eauto |].
        now exists (String b p), q.
      * intros ([|a p] & q & H).
        -- assert (String.prefix key (String b s) = true)
             by (apply prefix_spec; eauto).
           congruence.
        -- injection H as -> ->.
           destruct (proj2 IH) as [n Hn]; [eauto |]. rewrite Hn. eauto.
Qed.

(** X4. When the document is not a mapping, [check_key_exists] never gives a
    true answer and never a [KeyError]: it returns [False] or raises
    [TypeError]. For [None], a boolean or a number it always raises
    [TypeError]; for a list it raises [TypeError] when the key is one of the
    elements and returns [False] when it is not; for a string it raises
    [TypeError] when the key occurs in it and returns [False] when it does
    not. It sends nothing and leaves the instance alone. *)
Theorem check_key_exists_not_mapping (u c : string) (t d : value)
    (key : string) (sent0 : list request) :
  (forall m, d <> JDict m) ->
  let st := {| self := instance u c t d; sent := sent0 |} in
  (check_key_exists key st = (inr False_, st)
   \/ check_key_exists key st = (inl TypeError, st))
  /\ (match d with
      | JNull | JBool _ | JInt _ | JFloat _ =>
          check_key_exists key st = (inl TypeError, st)
      | JList l =>
          (In (JStr key) l -> check_key_exists key st = (inl TypeError, st))
          /\ (~ In (JStr key) l ->
              check_key_exists key st = (inr False_, st))
      | JStr s =>
          ((exists p q, s = p +:+ key +:+ q) ->
           check_key_exists key st = (inl TypeError, st))
          /\ (~ (exists p q, s = p +:+ key +:+ q) ->
              check_key_exists key st = (inr False_, st))
      | JDict _ => True
      end).
Proof.
  intros Hm st. unfold st.
  rewrite (check_key_exists_any _ d) by reflexivity.
  destruct d as [| | | | s|l|m]; cbn [contains]; auto.
  - destruct (bool_decide _) eqn:E; cbn [getitem].
    + apply bool_decide_eq_true, index_spec in E.
      split; [now right | split; [reflexivity | now intros []]].
    + apply bool_decide_eq_false in E. rewrite index_spec in E.
      split; [now left | split; [now intros ? | reflexivity]].
  - destruct (existsb _ l) eqn:E; cbn [getitem].
    + apply existsb_str_In in E.
      split; [now right | split; [reflexivity | now intros []]].
    + apply not_true_iff_false in E. rewrite existsb_str_In in E.
      split; [now left | split; [now intros ? | reflexivity]].
  - now destruct (Hm m).
Qed.

Lemma check_key_exists_not_mapping_witness :
  check_key_exists "name"
    {| self := instance "https://api.example.org/catalog" "abc" (JInt 30)
                 (JList [JStr "website"; JStr "name"]);
       sent := [] |}
  = (inl TypeError,
     {| self := instance "https://api.example.org/catalog" "abc" (JInt 30)
                  (JList [JStr "website"; JStr "name"]);
        sent := [] |})
  /\ check_key_exists "name"
       {| self := instance "https://api.example.org/catalog" "abc" (JInt 30)
                    (JStr "surname");
          sent := [] |}
     = (inl TypeError,
        {| self := instance "https://api.example.org/catalog" "abc" (JInt 30)
                     (JStr "surname");
           sent := [] |}).
Proof.
  split.
  - destruct (check_key_exists_not_mapping "https://api.example.org/catalog"
                "abc" (JInt 30) (JList [JStr "website"; JStr "name"]) "name" [])
      as [_ [Hin _]]; [discriminate |].
    apply Hin. right. left. reflexivity.
  - destruct (check_key_exists_not_mapping "https://api.example.org/catalog"
                "abc" (JInt 30) (JStr "surname") "name" [])
      as [_ [Hin _]]; [discriminate |].
    apply Hin. exists "sur", "". reflexivity.
Defined.

(** X5. When the document is not a mapping, [check_url_valid] and
    [check_date_age] raise the [TypeError] of [self.data[key]]: no request is
    sent, no date is parsed, and the error is not turned into a
    [CriticalException]. *)
Theorem checks_not_mapping (network : value -> value -> Requests.outcome)
    (strptime : string -> string -> option datetime) (now : datetime)
    (py_str : value -> string) (u c : string) (t d : value)
    (key date_format : string) (sent0 : list request) :
  (forall m, d <> JDict m) ->
  let st := {| self := instance u c t d; sent := sent0 |} in
  check_url_valid network py_str key st = (inl TypeError, st)
  /\ check_date_age strptime now key date_format st = (inl TypeError, st).
Proof.
  intros Hm st. split.
  - now apply (check_url_valid_not_mapping network py_str _ d).
  - now apply (check_date_age_not_mapping strptime now _ d).
Qed.

Lemma checks_not_mapping_witness :
  fst (check_url_valid Mock.network Mock.py_str "website"
         {| self := instance "https://api.example.org/catalog" "abc" (JInt 30)
                      (JList [JStr "website"]);
            sent := [] |}) = inl TypeError.
Proof.
  destruct (checks_not_mapping Mock.network Mock.strptime Mock.now Mock.py_str
              "https://api.example.org/catalog" "abc" (JInt 30)
              (JList [JStr "website"]) "website" "%Y-%m-%d" []) as [H _].
  - discriminate.
  - now rewrite H.
Defined.

(** X6. [check_key_exists] and [check_date_age] send no request, in any
    state of the instance and whatever they return or raise;
    [check_url_valid] sends at most one. *)
Theorem checks_requests (network : value -> value -> Requests.outcome)
    (strptime : string -> string -> option datetime) (now : datetime)
    (py_str : value -> string) (key date_format : string) (st : state) :
  sent (snd (check_key_exists key st)) = sent st
  /\ sent (snd (check_date_age strptime now key date_format st)) = sent st
  /\ exists more,
       sent (snd (check_url_valid network py_str key st))
       = (sent st ++ more)%list
       /\ (length more <= 1)%nat.
Proof.
  destruct st as [o sent0]. cbn [sent]. destruct (data o) as [d|] eqn:Ed.
  - split; [| split].
    + now rewrite (check_key_exists_any o d key sent0 Ed).
    + destruct d as [| | | | | |m].
      1-6: now rewrite (check_date_age_not_mapping strptime now _ _ key
                          date_format sent0 Ed) by discriminate.
      now rewrite (check_date_age_run strptime now _ m key date_format sent0 Ed).
    + destruct d as [| | | | | |m].
      1-6: rewrite (check_url_valid_not_mapping network py_str _ _ key sent0 Ed)
             by discriminate; exists []; rewrite app_nil_r;
             (split; [reflexivity | cbn; lia]).
      rewrite (check_url_valid_run network py_str _ m key sent0 Ed).
      destruct (m !! key) as [v|]; cbn [snd sent].
      * eexists. split; [reflexivity | cbn; lia].
      * exists []. rewrite app_nil_r. split; [reflexivity | cbn; lia].
  - unfold check_key_exists, check_date_age, check_url_valid, try_except,
      bind, self_data, getattr. cbn [self]. rewrite Ed. cbn [snd sent].
    split; [reflexivity | split; [reflexivity |]].
    exists []. rewrite app_nil_r. split; [reflexivity | cbn; lia].
Qed.

(** ** A true answer of [check_key_exists] as a guard *)

(** X7. A true answer of [check_key_exists] tells that the document is a
    mapping that binds the key to the value returned. After it, for the same
    key, [check_date_age] raises no [KeyError], and [check_url_valid] either
    returns [True] or raises [CriticalException], provided the exceptions
    that [requests.get] raises are those of [requests]. *)
Theorem check_key_exists_guards (network : value -> value -> Requests.outcome)
    (strptime : string -> string -> option datetime) (now : datetime)
    (py_str : value -> string) (u c : string) (t d : value)
    (key date_format : string) (sent0 : list request) (r : value) :
  (forall a b e, network a b = Requests.Raises e ->
                 exists cl msg, e = Requests cl msg) ->
  let st := {| self := instance u c t d; sent := sent0 |} in
  fst (check_key_exists key st) = inr r ->
  truthy r = true ->
  (exists m, d = JDict m /\ m !! key = Some r)
  /\ (fst (check_url_valid network py_str key st) = inr True_
      \/ exists msg,
           fst (check_url_valid network py_str key st)
           = inl (CriticalException (ArgStr msg)))
  /\ (forall k,
        fst (check_date_age strptime now key date_format st) <> inl (KeyError k)).
Proof.
  intros Hnet st Hr Ht. unfold st in *.
  rewrite (check_key_exists_any _ d) in Hr by reflexivity. cbn [fst] in Hr.
  assert (Hd : exists m, d = JDict m /\ m !! key = Some r).
  { destruct d as [| | | | s|l|m]; cbn [contains] in Hr; try discriminate.
    - destruct (bool_decide _); cbn [getitem] in Hr; [discriminate |].
      injection Hr as <-. discriminate.
    - destruct (existsb _ l); cbn [getitem] in Hr; [discriminate |].
      injection Hr as <-. discriminate.
    - exists m. split; [reflexivity |]. cbn [getitem] in Hr.
      destruct (m !! key) as [v|] eqn:E.
      + rewrite bool_decide_eq_true_2 in Hr by eauto. congruence.
      + rewrite bool_decide_eq_false_2 in Hr by (now intros [? ?]).
        injection Hr as <-. discriminate. }
  split; [exact Hd |]. destruct Hd as (m & -> & Hk). split.
  - rewrite (check_url_valid_run _ _ _ m) by reflexivity. rewrite Hk.
    cbn [fst]. unfold probed, not_valid.
    destruct (network r None_) as [e|resp] eqn:En.
    + destruct (Hnet _ _ _ En) as (cl & msg & ->). right. now eexists.
    + destruct (Requests.http_error_msg resp); [right; now eexists | now left].
  - intros k. rewrite (check_date_age_run _ _ _ m) by reflexivity. rewrite Hk.
    cbn [fst]. destruct r; try discriminate.
    destruct (strptime s date_format); discriminate.
Qed.

Lemma check_key_exists_guards_witness :
  fst (check_url_valid Mock.network Mock.py_str "broken"
         {| self := Mock.client; sent := [] |}) = inr True_
  \/ exists msg,
       fst (check_url_valid Mock.network Mock.py_str "broken"
              {| self := Mock.client; sent := [] |})
       = inl (CriticalException (ArgStr msg)).
Proof.
  refine (proj1 (proj2 (check_key_exists_guards Mock.network Mock.strptime
            Mock.now Mock.py_str "https://api.example.org/catalog" "abc"
            (JInt 30) (JDict Mock.document) "broken" "%Y-%m-%d" []
            (JStr "https://example.org/broken") _ _ _))).
  - intros a b e. unfold Mock.network, Mock.reply.
    destruct a; try (intros [= <-]; do 2 eexists; reflexivity).
    repeat (destruct (String.eqb s _); [discriminate |]).
    intros [= <-]. do 2 eexists. reflexivity.
  - reflexivity.
  - reflexivity.
Defined.

(** ** The age in months *)

(** X8. For a date the format parses, with the date and the clock both valid
    datetimes, the age is zero exactly when the date lies in the calendar
    month of the clock, and positive exactly when it lies in an earlier
    one. *)
Theorem check_date_age_sign (strptime : string -> string -> option datetime)
    (now : datetime) (u c : string) (t : value) (m : gmap string value)
    (key date_format s : string) (d : datetime) (sent0 : list request) :
  m !! key = Some (JStr s) ->
  strptime s date_format = Some d ->
  valid d = true ->
  valid now = true ->
  exists n,
    fst (check_date_age strptime now key date_format
           {| self := instance u c t (JDict m); sent := sent0 |}) = inr n
    /\ (n = 0 <-> year d = year now /\ month d = month now)
    /\ (0 < n <->
        year d < year now \/ (year d = year now /\ month d < month now)).
Proof.
  intros Hk Hp Hd Hn.
  rewrite (check_date_age_run _ _ _ m) by reflexivity. rewrite Hk, Hp.
  eexists. split; [reflexivity |].
  apply valid_month in Hd, Hn. split; lia.
Qed.

Lemma check_date_age_sign_witness :
  exists n,
    fst (check_date_age Mock.strptime Mock.now "released" "%Y-%m-%d"
           {| self := Mock.client; sent := [] |}) = inr n
    /\ 0 < n.
Proof.
  destruct (check_date_age_sign Mock.strptime Mock.now
              "https://api.example.org/catalog" "abc" (JInt 30) Mock.document
              "released" "%Y-%m-%d" "2023-01-31" (Mock.midnight 2023 1 31) []
              eq_refl eq_refl eq_refl eq_refl) as (n & Hn & _ & Hpos).
  exists n. split; [exact Hn |].
  apply Hpos. right. cbn. lia.
Defined.

(** X9. For a date the format parses, with the date and the clock both valid
    datetimes (years 1 to 9999), the age lies between -119987 and 119987
    months. *)
Theorem check_date_age_bounds (strptime : string -> string -> option datetime)
    (now : datetime) (u c : string) (t : value) (m : gmap string value)
    (key date_format s : string) (d : datetime) (sent0 : list request) :
  m !! key = Some (JStr s) ->
  strptime s date_format = Some d ->
  valid d = true ->
  valid now = true ->
  exists n,
    fst (check_date_age strptime now key date_format
           {| self := instance u c t (JDict m); sent := sent0 |}) = inr n
    /\ -119987 <= n <= 119987.
Proof.
  intros Hk Hp Hd Hn.
  rewrite (check_date_age_run _ _ _ m) by reflexivity. rewrite Hk, Hp.
  eexists. split; [reflexivity |].
  unfold valid in Hd, Hn. rewrite !andb_true_iff, !Z.leb_le in Hd, Hn. lia.
Qed.

Lemma check_date_age_bounds_witness :
  exists n,
    fst (check_date_age Mock.strptime Mock.now "planned" "%Y-%m-%d"
           {| self := Mock.client; sent := [] |}) = inr n
    /\ -119987 <= n <= 119987.
Proof.
  apply (check_date_age_bounds Mock.strptime Mock.now
           "https://api.example.org/catalog" "abc" (JInt 30) Mock.document
           "planned" "%Y-%m-%d" "2024-03-15" (Mock.midnight 2024 3 15) []);
    reflexivity.
Defined.

(** ** The URL that construction fetches *)

(** X10. A base URL given with one trailing slash is fetched like the same
    base URL given without it: the same GET is sent, and construction ends
    with the same document or the same exception. *)
Theorem request_url_trailing_slash (network : value -> value -> Requests.outcome)
    (u c : string) (t : value) :
  endswith u "/" = false ->
  request_url (u +:+ "/") c = request_url u c
  /\ snd (new network [] (u +:+ "/") c t) = snd (new network [] u c t)
  /\ match fst (new network [] (u +:+ "/") c t), fst (new network [] u c t) with
     | inr o, inr o' => data o = data o'
     | inl e, inl e' => e = e'
     | _, _ => False
     end.
Proof.
  intros E.
  assert (Hu : request_url (u +:+ "/") c = request_url u c).
  { unfold request_url. rewrite endswith_append, E. apply append_assoc. }
  split; [exact Hu |]. rewrite !new_run, Hu. split; [reflexivity |].
  cbn [fst]. now destruct (fetched _).
Qed.

Lemma request_url_trailing_slash_witness :
  request_url "https://api.example.org/catalog/" "abc"
  = request_url "https://api.example.org/catalog" "abc".
Proof.
  apply (request_url_trailing_slash Mock.network
           "https://api.example.org/catalog" "abc" (JInt 30)).
  reflexivity.
Defined.

(** X11. For one base URL, two different identifiers are fetched from two
    different URLs. *)
Theorem request_url_distinct (u c1 c2 : string) :
  c1 <> c2 -> request_url u c1 <> request_url u c2.
Proof.
  intros Hne Heq. apply Hne. unfold request_url in Heq.
  destruct (endswith u "/").
  - now apply (inj (String.append u)) in Heq.
  - apply (inj (String.append u)) in Heq.
    now apply (inj (String.append "/")) in Heq.
Qed.

Lemma request_url_distinct_witness :
  request_url "https://api.example.org/catalog" "abc"
  <> request_url "https://api.example.org/catalog" "gone".
Proof.
  apply (request_url_distinct "https://api.example.org/catalog" "abc" "gone").
  discriminate.
Defined.

(** ** What the handlers let through *)

(** X12. An exception of the GET that is not one of [requests] passes both
    handlers as it is: construction and [check_url_valid] raise that very
    exception, not a [CriticalException]. *)
Theorem other_exceptions_pass (network : value -> value -> Requests.outcome)
    (py_str : value -> string) (e : exn) :
  (forall cl msg, e <> Requests cl msg) ->
  (forall url catalog_id timeout sent0,
     network (JStr (request_url url catalog_id)) timeout = Requests.Raises e ->
     fst (new network sent0 url catalog_id timeout) = inl e)
  /\ (forall u c t (m : gmap string value) key v sent0,
        m !! key = Some v ->
        network v None_ = Requests.Raises e ->
        fst (check_url_valid network py_str key
               {| self := instance u c t (JDict m); sent := sent0 |}) = inl e).
Proof.
  intros He. split.
  - intros url catalog_id timeout sent0 Hn. rewrite new_run, Hn. cbn.
    destruct e; try reflexivity. now destruct (He c msg).
  - intros u c t m key v sent0 Hk Hn.
    rewrite (check_url_valid_run _ _ _ m) by reflexivity. rewrite Hk, Hn. cbn.
    destruct e; try reflexivity. now destruct (He c0 msg).
Qed.

Lemma other_exceptions_pass_witness :
  fst (new (fun _ _ => Requests.Raises ValueError) []
         "https://api.example.org/catalog" "abc" (JStr "soon"))
  = inl ValueError.
Proof.
  destruct (other_exceptions_pass (fun _ _ => Requests.Raises ValueError)
              Mock.py_str ValueError) as [Hnew _].
  - discriminate.
  - now apply Hnew.
Defined.

(** X13. When the catalog answers with a status outside 400..599 and
    [response.json()] raises, construction returns no instance: it raises
    [CriticalException] carrying the error if that is an exception of
    [requests], and the error itself otherwise. *)
Theorem construction_bad_body (network : value -> value -> Requests.outcome)
    (url catalog_id : string) (timeout : value) (sent0 : list request)
    (resp : Requests.response) (e : exn) :
  network (JStr (request_url url catalog_id)) timeout = Requests.Returns resp ->
  ~ 400 <= Requests.status_code resp < 600 ->
  Requests.json resp = inl e ->
  fst (new network sent0 url catalog_id timeout)
  = inl (match e with
         | Requests cl msg => CriticalException (ArgExc cl msg)
         | _ => e
         end).
Proof.
  intros Hn Hs Hj. rewrite new_run, Hn. cbn [fst]. unfold fetched.
  destruct (Requests.http_error_msg resp) as [msg|] eqn:E.
  - exfalso. apply Hs, http_error_msg_range. eauto.
  - rewrite Hj. now destruct e.
Qed.

Lemma construction_bad_body_witness :
  fst (new Mock.network [] "https://example.org" "" (JInt 30)) = inl ValueError.
Proof.
  apply (construction_bad_body Mock.network "https://example.org" "" (JInt 30) []
           {| Requests.status_code := 200; Requests.reason := "OK";
              Requests.url := "https://example.org/";
              Requests.json := inl ValueError |} ValueError).
  - reflexivity.
  - cbn. lia.
  - reflexivity.
Defined.
